(** * pytae example notebooks: call sites and the Plotter session they drive

    The repository holds two Jupyter notebooks.  Their code cells are
    embedded below as syntax trees of the Python they contain (named after
    Python's [ast] module), read off the cells line by line; comments of the
    cells are not code and are left out.  Analyses over these trees recover
    the call sites, and a small model of the plotting session interprets the
    method chains. *)

From Stdlib Require Import ZArith String Ascii List Bool Lia.
From stdpp Require Import base option list gmap strings.

Local Set Warnings "-register-all".
Local Open Scope string_scope.
Local Open Scope list_scope.

(** ** Python syntax used by the notebooks *)

Inductive expr : Type :=
| EName (id : string)
| EStr (s : string)
| EInt (n : Z)
| EFloat (lit : string)
| EBool (b : bool)
| EList (elts : list expr)
| ETuple (elts : list expr)
| EDict (items : list (expr * expr))
| EAttribute (value : expr) (attr : string)
| ESubscript (value : expr) (slice : expr)
| ECall (func : expr) (args : list expr) (keywords : list (string * expr)).

Inductive stmt : Type :=
| SImport (module asname : string)
| SAssign (target : string) (value : expr)
| SExpr (value : expr)
| STry (body handlers orelse finalbody : list stmt)
| SIf (test : expr) (body orelse : list stmt)
| SAssert (test : expr)
| SRaise (exc : expr).

Definition kwargs : Type := list (string * expr).

(** A method call [.m(args, **kws)] of a chain. *)
Record mcall : Type := dot { mname : string; margs : list expr; mkeywords : kwargs }.

Definition invoke (recv : expr) (c : mcall) : expr :=
  ECall (EAttribute recv (mname c)) (margs c) (mkeywords c).

(** [chain r [c1; ...; cn]] is the expression [r.c1(...). ... .cn(...)]. *)
Definition chain (root : expr) (cs : list mcall) : expr := fold_left invoke cs root.

Definition cell : Type := list stmt.
Definition notebook : Type := list cell.

Definition LF : string := String (ascii_of_nat 10) EmptyString.

(** ** Notebook [src/unnamed/part_000] *)

Module part_000.

Definition color : expr :=
  EDict [ (EStr "cue", EStr "blue"); (EStr "stim", EStr "black");
          (EStr "parietal", EStr "red"); (EStr "frontal", EStr "green");
          (EStr "Male", EStr "blue"); (EStr "Female", EStr "pink");
          (EStr "Dinner", EStr "green"); (EStr "Lunch", EStr "orange");
          (EStr "Yes", EStr "grey"); (EStr "No", EStr "brown") ].

Definition style : expr := EDict [ (EStr "cue", EStr "-"); (EStr "stim", EStr "--") ].
Definition width : expr := EDict [ (EStr "cue", EInt 3); (EStr "stim", EInt 1) ].
Definition marker : expr := EDict [ (EStr "Male", EStr "o"); (EStr "Female", EStr "x") ].
Definition size : expr := EDict [ (EStr "Male", EInt 10); (EStr "Female", EInt 20) ].

Definition sample_data (name : string) : expr :=
  ESubscript (EAttribute (EName "pt") "sample_data") (EStr name).

Definition Plotter_call (w h : Z) : expr :=
  ECall (EAttribute (EName "pt") "Plotter") [EName "mosaic"]
        [("figsize", ETuple [EInt w; EInt h])].

(** First cell: the 3x3+1 mosaic. *)
Definition mosaic1 : string :=
  LF +:+ "ABC" +:+ LF +:+ "DEF" +:+ LF +:+ "GHI" +:+ LF +:+ "JJJ" +:+ LF.

Definition calls1 : list mcall :=
  [ dot "data" [EName "fmri"] [];
    dot "plot" []
      [ ("x", EStr "timepoint"); ("y", EStr "signal"); ("by", EStr "event");
        ("aggfunc", EStr "mean"); ("color", EName "color"); ("style", EName "style");
        ("width", EName "width"); ("on", EStr "A"); ("title", EStr "region & event");
        ("kind", EStr "line") ];
    dot "plot" []
      [ ("x", EStr "timepoint"); ("y", EStr "signal"); ("by", EStr "region");
        ("kind", EStr "bar"); ("stacked", EBool true); ("on", EStr "A");
        ("color", EName "color"); ("aggfunc", EStr "mean") ];
    dot "data" [EName "tips"] [];
    dot "plot" []
      [ ("x", EStr "day"); ("y", EStr "total_bill"); ("by", EStr "sex");
        ("aggfunc", EStr "mean"); ("on", EStr "B^"); ("kind", EStr "bar");
        ("color", EName "color"); ("title", EStr "avg bill by sex") ];
    dot "plot" []
      [ ("x", EStr "size"); ("y", EStr "tip"); ("by", EStr "smoker"); ("on", EStr "C");
        ("kind", EStr "barh"); ("color", EName "color");
        ("title", EStr "avg tips by smoker status") ];
    dot "data" [EName "tips"] [];
    dot "plot" []
      [ ("kind", EStr "scatter"); ("x", EStr "total_bill"); ("y", EStr "tip");
        ("on", EStr "D"); ("marker", EStr "x"); ("s", EInt 5); ("c", EStr "day");
        ("cmap", EStr "viridis"); ("title", EStr "scatter plot demo") ];
    dot "data" [EName "tips"] [];
    dot "plot" []
      [ ("kind", EStr "hexbin"); ("x", EStr "total_bill"); ("y", EStr "tip");
        ("on", EStr "E"); ("C", EStr "size");
        ("reduce_C_function", EAttribute (EName "np") "sum");
        ("cmap", EStr "viridis"); ("gridsize", EInt 20); ("title", EStr "hexbin demo") ];
    dot "data" [EName "tips"] [];
    dot "plot" []
      [ ("kind", EStr "pie"); ("y", EStr "tip"); ("by", EStr "time"); ("on", EStr "F");
        ("aggfunc", EStr "mean"); ("autopct", EStr "%1.1f%%"); ("colors", EName "color");
        ("explode", ETuple [EInt 0; EFloat "0.05"]); ("title", EStr "pie demo") ];
    dot "data" [EName "healthexp"] [];
    dot "plot" []
      [ ("kind", EStr "area"); ("x", EStr "Year"); ("y", EStr "Spending_USD");
        ("aggfunc", EStr "mean"); ("on", EStr "G^"); ("legend", EBool false);
        ("by", EStr "Country"); ("title", EStr "area plot demo") ];
    dot "data" [EName "tips"] [];
    dot "plot" []
      [ ("kind", EStr "kde"); ("on", EStr "H^"); ("by", EStr "day");
        ("column", EStr "tip"); ("title", EStr "kde by days") ];
    dot "plot" []
      [ ("kind", EStr "kde"); ("column", EStr "tip"); ("on", EStr "H"); ("by", EStr "sex") ];
    dot "plot" []
      [ ("kind", EStr "density"); ("on", EStr "I"); ("by", EStr "day");
        ("column", EStr "tip"); ("title", EStr "density by days") ];
    dot "data" [EName "fmri"] [];
    dot "plot" []
      [ ("kind", EStr "hist"); ("column", EStr "signal"); ("by", EStr "event");
        ("on", EStr "J"); ("bins", EInt 100) ];
    dot "finalize" [] [] ].

Definition cell1 : cell :=
  [ SImport "numpy" "np";
    SImport "pandas" "pd";
    SImport "pytae" "pt";
    SAssign "fmri" (sample_data "fmri");
    SAssign "tips" (sample_data "tips");
    SAssign "healthexp" (sample_data "healthexp");
    SAssign "color" color;
    SAssign "style" style;
    SAssign "width" width;
    SAssign "marker" marker;
    SAssign "size" size;
    SAssign "mosaic" (EStr mosaic1);
    SAssign "k" (Plotter_call 12 12);
    SExpr (chain (EName "k") calls1);
    SExpr (EAttribute (EName "k") "fig") ].

(** Second cell: the 2x2 mosaic. *)
Definition mosaic2 : string := LF +:+ "AB" +:+ LF +:+ "CD" +:+ LF.

Definition calls2 : list mcall :=
  [ dot "data" [EName "fmri"] [];
    dot "plot" []
      [ ("x", EStr "timepoint"); ("y", EStr "signal"); ("by", EStr "event");
        ("aggfunc", EStr "mean"); ("color", EName "color"); ("style", EName "style");
        ("width", EName "width"); ("on", EStr "A"); ("title", EStr "region & event");
        ("kind", EStr "line") ];
    dot "plot" []
      [ ("x", EStr "timepoint"); ("y", EStr "signal"); ("by", EStr "region");
        ("kind", EStr "bar"); ("stacked", EBool true); ("on", EStr "A");
        ("color", EName "color"); ("aggfunc", EStr "mean") ];
    dot "data" [EName "tips"] [];
    dot "plot" []
      [ ("x", EStr "day"); ("y", EStr "total_bill"); ("by", EStr "sex");
        ("aggfunc", EStr "mean"); ("on", EStr "B"); ("kind", EStr "bar");
        ("color", EName "color"); ("title", EStr "avg bill by sex");
        ("secondary_y", EBool true) ];
    dot "plot" []
      [ ("x", EStr "size"); ("y", EStr "tip"); ("by", EStr "smoker"); ("on", EStr "C");
        ("kind", EStr "barh"); ("color", EName "color");
        ("title", EStr "avg tips by smoker status") ];
    dot "data" [EName "healthexp"] [];
    dot "plot" []
      [ ("kind", EStr "area"); ("x", EStr "Year"); ("y", EStr "Spending_USD");
        ("aggfunc", EStr "mean"); ("on", EStr "D"); ("by", EStr "Country");
        ("title", EStr "area plot demo"); ("secondary_y", EBool true);
        ("legend", EBool false) ];
    dot "finalize" [] [] ].

Definition cell2 : cell :=
  [ SAssign "mosaic" (EStr mosaic2);
    SAssign "k" (Plotter_call 8 8);
    SExpr (chain (EName "k") calls2);
    SExpr (EAttribute (EName "k") "fig") ].

(** Third cell: [k.plot_kwargs_store['A']['kind']]. *)
Definition cell3 : cell :=
  [ SExpr (ESubscript
             (ESubscript (EAttribute (EName "k") "plot_kwargs_store") (EStr "A"))
             (EStr "kind")) ].

Definition cell5 : cell :=
  [ SAssign "penguins" (sample_data "penguins");
    SExpr (EName "penguins") ].

Definition cells : notebook := [ cell1; cell2; cell3; []; cell5; []; [] ].

End part_000.

(** ** Notebook [src/src/.ipynb_checkpoints/other_utilities-checkpoint.ipynb] *)

Module other_utilities.

Definition cell1 : cell :=
  [ SImport "numpy" "np";
    SImport "pandas" "pd";
    SImport "pytae" "pt";
    SImport "seaborn" "sns";
    SAssign "penguins"
      (ECall (EAttribute (EName "sns") "load_dataset") [EStr "penguins"] []) ].

Definition cell2 : cell :=
  [ SExpr (chain (EName "penguins") [dot "cols" [] []]) ].

Definition cell3 : cell :=
  [ SAssign "df" (chain (EName "penguins") [dot "group_x" [] []]);
    SExpr (chain (EName "df") [dot "head" [] []]) ].

Definition cell4 : cell :=
  [ SAssign "df" (chain (EName "penguins") [dot "handle_missing" [] [("fillna", EStr "$")]]);
    SExpr (chain (EName "df") [dot "head" [] []]) ].

Definition cell5 : cell :=
  [ SExpr (chain (EName "df") [dot "clip" [] []]) ].

Definition cell6 : cell := [ SExpr (EName "penguins") ].

Definition cell7 : cell :=
  [ SExpr (chain (EName "penguins") [dot "select" [EStr "spe|sex|^n|^bi"] []]) ].

Definition cell8 : cell :=
  [ SExpr (chain (EName "penguins") [dot "select" [EList [EStr "species"; EStr "n"]] []]) ].

Definition print (e : expr) : stmt := SExpr (ECall (EName "print") [e] []).

Definition cell9 : cell :=
  [ SAssign "df"
      (ECall (EAttribute (EName "pd") "DataFrame")
         [ chain (EName "np") [dot "arange" [EInt 12] []; dot "reshape" [EInt 3; EInt 4] []] ]
         [ ("columns", EList [EStr "A"; EStr "B_X"; EStr "B"; EStr "C"]) ]);
    print (EStr "original df");
    print (EName "df");
    print (EStr (LF +:+ "select using a list"));
    print (chain (EName "df") [dot "select" [EList [EStr "A"; EStr "B_X"]] []]);
    print (EStr (LF +:+ "select using a regex"));
    print (chain (EName "df") [dot "select" [EStr "^B|C"] []]);
    print (EStr (LF +:+ "select using a tuple of list and  regex"));
    print (chain (EName "df")
             [dot "select" [ETuple [EList [EStr "A"; EStr "B_X"]; EStr "^B|C"]] []]) ].

Definition cells : notebook :=
  [ cell1; cell2; cell3; cell4; cell5; cell6; cell7; cell8; cell9; [] ].

End other_utilities.

(** The whole source: both notebooks, each run top to bottom. *)
Definition source : list notebook := [ part_000.cells; other_utilities.cells ].

(** ** Reading the call sites off the syntax *)

(** A method chain [r.m1(..). ... .mn(..)] taken apart into its root [r] and
    its calls in the order they run. *)
Fixpoint method_chain (e : expr) : expr * list mcall :=
  match e with
  | ECall (EAttribute recv m) args kws =>
      let '(root, cs) := method_chain recv in (root, cs ++ [dot m args kws])
  | _ => (e, [])
  end.

(** Every method call [recv.m(..)] inside an expression, with its receiver,
    in evaluation order: receiver first, then the arguments, then the call. *)
Fixpoint call_sites (e : expr) : list (expr * mcall) :=
  match e with
  | ECall f args kws =>
      let inner :=
        flat_map call_sites args ++ flat_map (fun '(_, v) => call_sites v) kws in
      match f with
      | EAttribute recv m => call_sites recv ++ inner ++ [(recv, dot m args kws)]
      | _ => call_sites f ++ inner
      end
  | EAttribute v _ => call_sites v
  | ESubscript v s => call_sites v ++ call_sites s
  | EList es | ETuple es => flat_map call_sites es
  | EDict items => flat_map (fun '(k, v) => call_sites k ++ call_sites v) items
  | EName _ | EStr _ | EInt _ | EFloat _ | EBool _ => []
  end.

(** What a name of a notebook is bound to, as far as the cells show it:
    an imported module, a DataFrame (a sample dataset, a frame built by
    pandas, or what a DataFrame method gave back), or a Plotter session. *)
Inductive pytype : Type := TModule | TDataFrame | TPlotter | TUnknown.

Record env : Type := mkEnv { types : gmap string pytype; values : gmap string expr }.

Definition empty_env : env := mkEnv ∅ ∅.

Fixpoint type_of (tys : gmap string pytype) (e : expr) : pytype :=
  match e with
  | EName x => default TUnknown (tys !! x)
  | ESubscript (EAttribute m a) _ =>
      match type_of tys m with
      | TModule => if String.eqb a "sample_data" then TDataFrame else TUnknown
      | _ => TUnknown
      end
  | ECall (EAttribute recv m) _ _ =>
      match type_of tys recv with
      | TModule =>
          if String.eqb m "load_dataset" || String.eqb m "DataFrame" then TDataFrame
          else if String.eqb m "Plotter" then TPlotter
          else TUnknown
      | TDataFrame => TDataFrame
      | TPlotter => TPlotter
      | TUnknown => TUnknown
      end
  | _ => TUnknown
  end.

(** The value of an argument that is a name, at the time of the call. *)
Definition deref (vals : gmap string expr) (e : expr) : expr :=
  match e with
  | EName x => default e (vals !! x)
  | _ => e
  end.

Definition bound_value (vals : gmap string expr) (e : expr) : expr :=
  match e with
  | ECall f args kws => ECall f (map (deref vals) args) (map (prod_map id (deref vals)) kws)
  | _ => e
  end.

Definition exec_stmt (s : stmt) (ρ : env) : env :=
  match s with
  | SImport _ a => mkEnv (<[a := TModule]> (types ρ)) (values ρ)
  | SAssign t v =>
      mkEnv (<[t := type_of (types ρ) v]> (types ρ))
            (<[t := bound_value (values ρ) v]> (values ρ))
  | _ => ρ
  end.

Definition stmt_exprs (s : stmt) : list expr :=
  match s with
  | SAssign _ v | SExpr v | SAssert v | SRaise v => [v]
  | SIf t _ _ => [t]
  | SImport _ _ | STry _ _ _ _ => []
  end.

(** A Plotter session: the constructor call that made the object (its
    arguments as they were when it ran) and the chain of calls on it. *)
Record session : Type := mkSession { constructor : expr; calls : list mcall }.

Definition session_of (ρ : env) (s : stmt) : option session :=
  match s with
  | SExpr e =>
      match method_chain e with
      | (EName x, c :: cs) =>
          match types ρ !! x, values ρ !! x with
          | Some TPlotter, Some ctor => Some (mkSession ctor (c :: cs))
          | _, _ => None
          end
      | _ => None
      end
  | _ => None
  end.

Fixpoint sessions_from (ρ : env) (ss : list stmt) : list session :=
  match ss with
  | [] => []
  | s :: ss' =>
      match session_of ρ s with
      | Some x => x :: sessions_from (exec_stmt s ρ) ss'
      | None => sessions_from (exec_stmt s ρ) ss'
      end
  end.

Definition sessions (nb : notebook) : list session := sessions_from empty_env (concat nb).

Definition all_sessions : list session := flat_map sessions source.

(** Method calls with the type of their receiver, along a run of the cells. *)
Fixpoint typed_calls_from (ρ : env) (ss : list stmt) : list (pytype * mcall) :=
  match ss with
  | [] => []
  | s :: ss' =>
      map (fun '(r, c) => (type_of (types ρ) r, c)) (flat_map call_sites (stmt_exprs s))
        ++ typed_calls_from (exec_stmt s ρ) ss'
  end.

Definition is_dataframe (t : pytype) : bool :=
  match t with TDataFrame => true | _ => false end.

(** The DataFrame method calls of a notebook. *)
Definition dataframe_calls (nb : notebook) : list mcall :=
  map snd (filter (fun tc => is_dataframe (fst tc) = true)
                  (typed_calls_from empty_env (concat nb))).

Definition all_dataframe_calls : list mcall := flat_map dataframe_calls source.

Definition is_plot (c : mcall) : bool := String.eqb (mname c) "plot".
Definition is_data (c : mcall) : bool := String.eqb (mname c) "data".

Fixpoint kwarg (name : string) (kws : kwargs) : option expr :=
  match kws with
  | [] => None
  | (k, v) :: kws' => if String.eqb k name then Some v else kwarg name kws'
  end.

(** The plot calls of a session, each with the mosaic string its session
    was constructed with. *)
Definition mosaic_of (s : session) : option string :=
  match constructor s with
  | ECall _ (EStr m :: _) _ => Some m
  | _ => None
  end.

Definition plot_calls (s : session) : list mcall :=
  filter (fun c => is_plot c = true) (calls s).

Definition all_plot_calls : list mcall := flat_map plot_calls all_sessions.

(** Every call of a method named [plot] anywhere in the source, whatever
    it is called on. *)
Definition source_plot_calls : list mcall :=
  filter (fun c => is_plot c = true)
         (flat_map (fun nb => map snd (typed_calls_from empty_env (concat nb))) source).

(** *** Mosaic cell labels *)

Definition is_letter (a : ascii) : bool :=
  let n := nat_of_ascii a in
  (65 <=? n)%nat && (n <=? 90)%nat || (97 <=? n)%nat && (n <=? 122)%nat.

(** [on] is one letter, and the letter stands in the mosaic string. *)
Definition single_letter_label (mosaic on : string) : Prop :=
  ∃ a, on = String a "" ∧ is_letter a = true ∧ In a (list_ascii_of_string mosaic).

(** [on] is one letter of the mosaic string, alone or followed by [^]. *)
Definition cell_target (mosaic on : string) : Prop :=
  ∃ a, (on = String a "" ∨ on = String a "^")
       ∧ is_letter a = true ∧ In a (list_ascii_of_string mosaic).

Definition cell_targetb (mosaic on : string) : bool :=
  match on with
  | String a rest =>
      (String.eqb rest "" || String.eqb rest "^")
      && is_letter a && existsb (Ascii.eqb a) (list_ascii_of_string mosaic)
  | EmptyString => false
  end.

(** The [on] argument of call [c] of session [s] satisfies [P] against the
    mosaic the session was constructed with. *)
Definition on_satisfies (P : string → string → Prop) (s : session) (c : mcall) : Prop :=
  ∃ m on, mosaic_of s = Some m ∧ kwarg "on" (mkeywords c) = Some (EStr on) ∧ P m on.

Definition on_targetb (s : session) (c : mcall) : bool :=
  match mosaic_of s, kwarg "on" (mkeywords c) with
  | Some m, Some (EStr on) => cell_targetb m on
  | _, _ => false
  end.

(** *** Names the spec fixes *)

Definition exploratory_ops : list string := ["select"; "group_x"; "handle_missing"; "clip"].

Definition plot_kinds : list string :=
  ["line"; "bar"; "barh"; "scatter"; "hexbin"; "pie"; "area"; "kde"; "density"; "hist"].

(** Statements that guard against or signal a failure. *)
Definition error_handling (s : stmt) : bool :=
  match s with
  | STry _ _ _ _ | SIf _ _ _ | SAssert _ | SRaise _ => true
  | SImport _ _ | SAssign _ _ | SExpr _ => false
  end.

Definition all_stmts : list stmt := flat_map (fun nb => concat nb) source.

(** The mosaic cell a target names: the target without a final [^]
    (the call sites write [B^], [G^] and [H^] for the cells [B], [G] and [H]
    of the mosaic). *)
Fixpoint cell_label (on : string) : string :=
  match on with
  | EmptyString => EmptyString
  | String a rest =>
      if Ascii.eqb a "^" && String.eqb rest "" then EmptyString
      else String a (cell_label rest)
  end.

(** ** The plotting session *)

Module Plotter.

(** The figure a session draws into: the layout and size it was made with,
    what has been drawn (target, dataset, keyword arguments of each plot,
    in order), and whether it has been assembled. *)
Record figure : Type := mkFigure {
  layout : string;
  size_hint : expr;
  artists : list (string * option expr * kwargs);
  assembled : bool
}.

(** Modelled from the spec: the Plotter class of pytae (its constructor, the
    methods [data], [plot] and [finalize], and the attributes [fig] and
    [plot_kwargs_store]) is not among the sources, only calls of it are.
    Section 6 of the spec gives the session a constructor taking a mosaic
    string and a size hint, an active dataset that [data] switches for the
    plot calls after it, a [finalize] that assembles the figure, a figure
    accessor and a store of recorded plot keyword arguments keyed by the
    target cell label a plot call is given, its [on] argument. *)
Record t : Type := mk {
  active : option expr;
  plot_kwargs_store : gmap string kwargs;
  fig : figure
}.

(** Modelled from the spec: the session constructor. *)
Definition new (mosaic : string) (figsize : expr) : t :=
  mk None ∅ (mkFigure mosaic figsize [] false).

(** Modelled from the spec: [data] switches the active dataset. *)
Definition data (d : expr) (p : t) : t :=
  mk (Some d) (plot_kwargs_store p) (fig p).

Definition draw (on : string) (d : option expr) (kws : kwargs) (f : figure) : figure :=
  mkFigure (layout f) (size_hint f) (artists f ++ [(on, d, kws)]) (assembled f).

(** Modelled from the spec: [plot] draws the active dataset on its target
    and records its keyword arguments under the target as it was passed, as
    a Python dict assignment does; a call that names no target records
    nothing. *)
Definition plot (kws : kwargs) (p : t) : t :=
  match kwarg "on" kws with
  | Some (EStr on) =>
      mk (active p)
         (<[on := kws]> (plot_kwargs_store p))
         (draw on (active p) kws (fig p))
  | _ => p
  end.

(** Modelled from the spec: [finalize] assembles the figure. *)
Definition finalize (p : t) : t :=
  mk (active p) (plot_kwargs_store p)
     (mkFigure (layout (fig p)) (size_hint (fig p)) (artists (fig p)) true).

(** Modelled from the spec: one call of a chain on a session; a method the
    session does not have, or [data] without its one dataset, is an error. *)
Definition step (c : mcall) (p : t) : option t :=
  if is_data c then
    match margs c with
    | [d] => Some (data d p)
    | _ => None
    end
  else if is_plot c then Some (plot (mkeywords c) p)
  else if String.eqb (mname c) "finalize" then Some (finalize p)
  else None.

Fixpoint run_chain (cs : list mcall) (p : t) : option t :=
  match cs with
  | [] => Some p
  | c :: cs' =>
      match step c p with
      | Some p' => run_chain cs' p'
      | None => None
      end
  end.

(** The session a constructor call makes: exactly a mosaic string and a
    [figsize] keyword. *)
Definition construct (ctor : expr) : option t :=
  match ctor with
  | ECall _ [EStr m] [(kw, fs)] =>
      if String.eqb kw "figsize" then Some (new m fs) else None
  | _ => None
  end.

(** *** Reading a session *)

Inductive value : Type :=
| VFigure (f : figure)
| VStore (m : gmap string kwargs)
| VKwargs (kws : kwargs)
| VExpr (e : expr).


End Plotter.

(** The dataset a [data] call supplies. *)
Definition data_arg (c : mcall) : option expr :=
  if is_data c then
    match margs c with
    | [d] => Some d
    | _ => None
    end
  else None.

(** The dataset supplied by the last [data] call of [pre], if it has one. *)
Definition most_recent_data (pre : list mcall) : option expr := last (omap data_arg pre).

(** The session object a session of the source starts from. *)
Definition start (s : session) : option Plotter.t := Plotter.construct (constructor s).


(** The labelled target of a plot call. *)
Definition target (c : mcall) : option string :=
  match kwarg "on" (mkeywords c) with
  | Some (EStr on) => Some (cell_label on)
  | _ => None
  end.

Definition session1 : session :=
  mkSession (ECall (EAttribute (EName "pt") "Plotter") [EStr part_000.mosaic1]
                   [("figsize", ETuple [EInt 12; EInt 12])])
            part_000.calls1.

Definition session2 : session :=
  mkSession (ECall (EAttribute (EName "pt") "Plotter") [EStr part_000.mosaic2]
                   [("figsize", ETuple [EInt 8; EInt 8])])
            part_000.calls2.

(** The call of the first session that targets [B^]
    (line 44 of the notebook). *)
Definition plot_on_B : mcall := nth 4 part_000.calls1 (dot "" [] []).

Definition is_method_call (e : expr) : bool :=
  match e with
  | ECall (EAttribute _ _) _ _ => true
  | _ => false
  end.

(** The [kind] of a call is a string of the fixed set, when it is given. *)
Definition kind_in_set (c : mcall) : Prop :=
  ∀ e, kwarg "kind" (mkeywords c) = Some e → ∃ k, e = EStr k ∧ In k plot_kinds.

Definition kind_in_setb (c : mcall) : bool :=
  match kwarg "kind" (mkeywords c) with
  | Some (EStr k) => existsb (String.eqb k) plot_kinds
  | Some _ => false
  | None => true
  end.

(** Calls [c1] and then [c2] of session [s] are plot calls on cell [L]. *)
Definition targeted_twice (s : session) (L : string) (c1 c2 : mcall) : Prop :=
  ∃ i j : nat, (i < j)%nat
    ∧ calls s !! i = Some c1 ∧ calls s !! j = Some c2
    ∧ is_plot c1 = true ∧ is_plot c2 = true
    ∧ target c1 = Some L ∧ target c2 = Some L.

(** No plot call before a call that supplies a dataset ([seen]: one has
    been met already). *)
Fixpoint data_before_plots (seen : bool) (cs : list mcall) : bool :=
  match cs with
  | [] => true
  | c :: cs' =>
      if is_plot c then seen && data_before_plots seen cs'
      else data_before_plots (seen || bool_decide (is_Some (data_arg c))) cs'
  end.

(** [k.plot_kwargs_store[L]['kind']]; the third cell of the plotting
    notebook reads it for [L = 'A']. *)
Definition read_kind_of (L : string) : expr :=
  ESubscript (ESubscript (EAttribute (EName "k") "plot_kwargs_store") (EStr L))
             (EStr "kind").

Definition read_kind_of_A : expr := read_kind_of "A".

(** The chain of a session runs through on the object its constructor
    made, and no plot call of it comes before a [data] call. *)
Definition well_chained (s : session) : bool :=
  match start s with
  | Some p0 =>
      bool_decide (is_Some (Plotter.run_chain (calls s) p0))
      && data_before_plots false (calls s)
  | None => false
  end.




(** The argument of a [select] call, by its shape. *)
Inductive select_arg : Type :=
| ByList (cols : list string)
| ByRegex (re : string)
| ByBoth (cols : list string) (re : string).

Fixpoint str_elts (es : list expr) : option (list string) :=
  match es with
  | [] => Some []
  | EStr x :: es' =>
      match str_elts es' with
      | Some xs => Some (x :: xs)
      | None => None
      end
  | _ :: _ => None
  end.

Definition select_arg_of (c : mcall) : option select_arg :=
  match margs c, mkeywords c with
  | [EStr re], [] => Some (ByRegex re)
  | [EList es], [] => ByList <$> str_elts es
  | [ETuple [EList es; EStr re]], [] => (fun cols => ByBoth cols re) <$> str_elts es
  | _, _ => None
  end.

Definition select_calls : list mcall :=
  filter (fun c => String.eqb (mname c) "select" = true) all_dataframe_calls.

(** ** Names, keywords and the shape of a chain *)

(** The names an expression reads. *)
Fixpoint names_read (e : expr) : list string :=
  match e with
  | EName x => [x]
  | EStr _ | EInt _ | EFloat _ | EBool _ => []
  | EList es | ETuple es => flat_map names_read es
  | EDict items => flat_map (fun '(k, v) => names_read k ++ names_read v) items
  | EAttribute v _ => names_read v
  | ESubscript v sl => names_read v ++ names_read sl
  | ECall f args kws =>
      names_read f ++ flat_map names_read args
        ++ flat_map (fun '(_, v) => names_read v) kws
  end.

Definition stmt_reads (s : stmt) : list string := flat_map names_read (stmt_exprs s).

(** The name a statement binds: the alias of an import, the target of an
    assignment. *)
Definition stmt_binds (s : stmt) : list string :=
  match s with
  | SImport _ a => [a]
  | SAssign t _ => [t]
  | _ => []
  end.

(** Names Python provides without an import. *)
Definition builtins : list string := ["print"].

Definition mem (x : string) (l : list string) : bool := existsb (String.eqb x) l.

(** Every name a statement reads is in [bound] or was bound by a statement
    before it. *)
Fixpoint bound_before_use (bound : list string) (ss : list stmt) : bool :=
  match ss with
  | [] => true
  | s :: ss' =>
      forallb (fun x => mem x bound) (stmt_reads s)
      && bound_before_use (stmt_binds s ++ bound) ss'
  end.

Definition names_bound (nb : notebook) : list string := flat_map stmt_binds (concat nb).
Definition names_used (nb : notebook) : list string := flat_map stmt_reads (concat nb).

(** The names a notebook binds and reads nowhere. *)
Definition unused (nb : notebook) : list string :=
  filter (fun x => mem x (names_used nb) = false) (names_bound nb).

(** Every method call of the source, in the order the cells run them. *)
Definition all_method_calls : list mcall :=
  flat_map (fun nb => map snd (typed_calls_from empty_env (concat nb))) source.

Fixpoint distinct (l : list string) : bool :=
  match l with
  | [] => true
  | x :: l' => negb (mem x l') && distinct l'
  end.

Definition targets_cell (a : ascii) (c : mcall) : bool :=
  match target c with
  | Some L => String.eqb L (String a "")
  | None => false
  end.

Definition is_finalize (c : mcall) : bool :=
  String.eqb (mname c) "finalize"
  && match margs c, mkeywords c with
     | [], [] => true
     | _, _ => false
     end.

(** A [data] call with the plot calls that follow it. *)
Definition block : Type := mcall * list mcall.

Definition block_calls (b : block) : list mcall := b.1 :: b.2.

Definition block_ok (b : block) : Prop :=
  is_data b.1 = true ∧ b.2 ≠ [] ∧ Forall (fun c => is_plot c = true) b.2.

(** Splits a chain into its blocks: [data] calls each followed by one or
    more [plot] calls, and one bare [finalize] call at the end; [cur] is
    the block being read. *)
Fixpoint blocks_from (cur : option block) (cs : list mcall) : option (list block) :=
  match cs with
  | [] => None
  | c :: cs' =>
      if is_data c then
        match cur with
        | None => blocks_from (Some (c, [])) cs'
        | Some (_, []) => None
        | Some (d, p :: ps) =>
            match blocks_from (Some (c, [])) cs' with
            | Some bs => Some ((d, p :: ps) :: bs)
            | None => None
            end
        end
      else if is_plot c then
        match cur with
        | None => None
        | Some (d, ps) => blocks_from (Some (d, ps ++ [c])) cs'
        end
      else if is_finalize c then
        match cur, cs' with
        | Some (d, p :: ps), [] => Some [(d, p :: ps)]
        | _, _ => None
        end
      else None
  end.

(** The calls of the block being read. *)
Definition open_calls (cur : option block) : list mcall :=
  match cur with
  | Some b => block_calls b
  | None => []
  end.

(** The datasets the plotting notebook loads by name. *)
Definition sample_names : list string := ["fmri"; "tips"; "healthexp"].

Definition data_call_okb (c : mcall) : bool :=
  match margs c, mkeywords c with
  | [EName x], [] => mem x sample_names
  | _, _ => false
  end.

Definition plot_call_okb (c : mcall) : bool :=
  match margs c with
  | [] => bool_decide (is_Some (kwarg "on" (mkeywords c)))
          && bool_decide (is_Some (kwarg "kind" (mkeywords c)))
  | _ => false
  end.

Definition session_call_okb (c : mcall) : bool :=
  if is_data c then data_call_okb c
  else if is_plot c then plot_call_okb c
  else is_finalize c.

(** The kinds that plot the distribution of one column. *)
Definition distribution_kinds : list string := ["kde"; "density"; "hist"].

Definition given (name : string) (c : mcall) : bool :=
  match kwarg name (mkeywords c) with
  | Some _ => true
  | None => false
  end.

Definition axes_match_kind (k : string) (c : mcall) : bool :=
  Bool.eqb (mem k distribution_kinds) (given "column" c)
  && Bool.eqb (mem k distribution_kinds) (negb (given "y" c))
  && Bool.eqb (mem k ("pie" :: distribution_kinds)) (negb (given "x" c)).

Definition axes_match_kindb (c : mcall) : bool :=
  match kwarg "kind" (mkeywords c) with
  | Some (EStr k) => axes_match_kind k c
  | _ => true
  end.

(** Method calls with the value their receiver is bound to when they run
    (the receiver itself when it is not a bound name). *)
Fixpoint receiver_values_from (ρ : env) (ss : list stmt) : list (expr * mcall) :=
  match ss with
  | [] => []
  | s :: ss' =>
      map (fun '(r, c) => (deref (values ρ) r, c)) (flat_map call_sites (stmt_exprs s))
        ++ receiver_values_from (exec_stmt s ρ) ss'
  end.

Definition receiver_values (nb : notebook) : list (expr * mcall) :=
  receiver_values_from empty_env (concat nb).

(** The column names of a frame built by [DataFrame(..., columns=[...])]. *)
Definition frame_columns (e : expr) : option (list string) :=
  match e with
  | ECall (EAttribute _ m) _ kws =>
      if String.eqb m "DataFrame" then
        match kwarg "columns" kws with
        | Some (EList es) => str_elts es
        | _ => None
        end
      else None
  | _ => None
  end.

(** The column names a [select] call lists. *)
Definition listed_columns (c : mcall) : list string :=
  match select_arg_of c with
  | Some (ByList cols) | Some (ByBoth cols _) => cols
  | _ => []
  end.

Definition lists_known_columns (vc : expr * mcall) : bool :=
  match frame_columns vc.1 with
  | Some cols =>
      negb (String.eqb (mname vc.2) "select")
      || forallb (fun x => mem x cols) (listed_columns vc.2)
  | None => true
  end.

(** * Properties *)

(** ** The source as read *)

Lemma method_chain_root (e : expr) :
  is_method_call e = false → method_chain e = (e, []).
Proof. destruct e as [| | | | | | | | | |f a k]; try reflexivity. by destruct f. Qed.

Lemma method_chain_invoke (e : expr) (c : mcall) :
  method_chain (invoke e c) = ((method_chain e).1, (method_chain e).2 ++ [c]).
Proof. destruct c as [m a k]. simpl. by destruct (method_chain e). Qed.

(** Taking a chain apart gives back the root and the calls it was written
    with, so the call lists of the cells are the chains of the source. *)
Lemma method_chain_chain (root : expr) (cs : list mcall) :
  is_method_call root = false → method_chain (chain root cs) = (root, cs).
Proof.
  intros Hroot. induction cs as [|c cs IH] using rev_ind.
  - by apply method_chain_root.
  - unfold chain in *. rewrite fold_left_app. cbn [fold_left].
    rewrite method_chain_invoke, IH. reflexivity.
Qed.

Lemma all_sessions_eq : all_sessions = [session1; session2].
Proof. vm_compute. reflexivity. Qed.

Lemma source_plot_calls_eq : source_plot_calls = all_plot_calls.
Proof. vm_compute. reflexivity. Qed.

Lemma all_dataframe_calls_names :
  map mname all_dataframe_calls =
  ["cols"; "group_x"; "head"; "handle_missing"; "head"; "clip";
   "select"; "select"; "select"; "select"; "select"].
Proof. vm_compute. reflexivity. Qed.


(** ** C1: the target of a plot call *)

Lemma cell_targetb_sound (m on : string) : cell_targetb m on = true → cell_target m on.
Proof.
  destruct on as [|a rest]; simpl; [discriminate|].
  rewrite !andb_true_iff, orb_true_iff, !String.eqb_eq, existsb_exists.
  intros [[Hrest Hl] (b & Hb & Hab)]. apply Ascii.eqb_eq in Hab. subst b.
  exists a. split; [|done]. destruct Hrest as [->| ->]; auto.
Qed.

Lemma on_targetb_sound (s : session) (c : mcall) :
  on_targetb s c = true → on_satisfies cell_target s c.
Proof.
  unfold on_targetb, on_satisfies. intros H.
  destruct (mosaic_of s) as [m|]; [|discriminate].
  destruct (kwarg "on" (mkeywords c)) as [e|]; [|discriminate].
  destruct e as [|on| | | | | | | | |]; try discriminate.
  exists m, on. auto using cell_targetb_sound.
Qed.

(** C1, as the claim states it, fails: the plot call of line 44 passes
    [on='B^'], two characters, not a single-letter label. *)
Lemma plot_on_B_not_single_letter :
  ¬ (∀ s c, In s all_sessions → In c (plot_calls s) →
            on_satisfies single_letter_label s c).
Proof.
  intros H. destruct (H session1 plot_on_B) as (m & on & _ & Hon & a & Ha & _).
  - rewrite all_sessions_eq. by left.
  - vm_compute. tauto.
  - vm_compute in Hon. injection Hon as <-. discriminate Ha.
Qed.

Lemma plot_on_is_cell_target_aux (s : session) (c : mcall) :
  In s all_sessions → In c (plot_calls s) → on_satisfies cell_target s c.
Proof.
  intros Hs Hc. apply on_targetb_sound.
  assert (Hall : forallb (fun s => forallb (on_targetb s) (plot_calls s)) all_sessions = true)
    by (vm_compute; reflexivity).
  rewrite forallb_forall in Hall. specialize (Hall s Hs).
  rewrite forallb_forall in Hall. exact (Hall c Hc).
Qed.

(** C1, amended: for every plot call of every Plotter session of the
    source, the value passed as [on] is one letter that stands in the mosaic
    string the session was constructed with, alone or followed by [^]. *)
Theorem plot_on_is_cell_target (s : session) (c : mcall) :
  In s all_sessions → In c (plot_calls s) → on_satisfies cell_target s c.
Proof. apply plot_on_is_cell_target_aux. Qed.

Lemma plot_on_is_cell_target_witness :
  In session1 all_sessions ∧ In plot_on_B (plot_calls session1)
  ∧ on_satisfies cell_target session1 plot_on_B.
Proof.
  assert (H1 : In session1 all_sessions) by (vm_compute; tauto).
  assert (H2 : In plot_on_B (plot_calls session1)) by (vm_compute; tauto).
  exact (conj H1 (conj H2 (plot_on_is_cell_target session1 plot_on_B H1 H2))).
Defined.

(** ** C2: the DataFrame calls of the source *)

(** C2, as the claim states it, fails: the second cell of the utilities
    notebook calls [penguins.cols()], and the third [df.head()]. *)
Lemma dataframe_calls_beyond_exploratory_ops :
  ¬ (∀ c, In c all_dataframe_calls → In (mname c) exploratory_ops).
Proof.
  intros H. specialize (H (dot "cols" [] [])).
  assert (Hin : In (dot "cols" [] []) all_dataframe_calls) by (vm_compute; tauto).
  specialize (H Hin). vm_compute in H.
  repeat (destruct H as [H|H]; [discriminate H|]). exact H.
Qed.

(** C2, amended: every DataFrame method call appearing in the source is one
    of [select], [group_x], [handle_missing], [clip], [cols] and [head]. *)
Theorem dataframe_calls_are_known (c : mcall) :
  In c all_dataframe_calls → In (mname c) (exploratory_ops ++ ["cols"; "head"]).
Proof.
  intros Hc. apply (in_map mname) in Hc. rewrite all_dataframe_calls_names in Hc.
  simpl in Hc. simpl. intuition.
Qed.

Lemma dataframe_calls_are_known_witness :
  In (dot "cols" [] []) all_dataframe_calls
  ∧ In "cols" (exploratory_ops ++ ["cols"; "head"]).
Proof.
  assert (H : In (dot "cols" [] []) all_dataframe_calls) by (vm_compute; tauto).
  exact (conj H (dataframe_calls_are_known (dot "cols" [] []) H)).
Defined.

(** Each of the six is called, so the list of the amended claim is exact. *)
Lemma dataframe_ops_all_used (m : string) :
  In m (exploratory_ops ++ ["cols"; "head"]) →
  ∃ c, In c all_dataframe_calls ∧ mname c = m.
Proof.
  intros Hm.
  assert (Hin : In m (map mname all_dataframe_calls)).
  { rewrite all_dataframe_calls_names. simpl in Hm. simpl. intuition. }
  apply in_map_iff in Hin as (c & Hc & Hin). eauto.
Qed.

(** ** C3: the kinds of the plot calls *)

Lemma kind_in_setb_sound (c : mcall) : kind_in_setb c = true → kind_in_set c.
Proof.
  unfold kind_in_setb, kind_in_set. intros H e He. rewrite He in H.
  destruct e as [|k| | | | | | | | |]; try discriminate.
  apply existsb_exists in H as (k' & Hin & Hk). apply String.eqb_eq in Hk. subst k'.
  eauto.
Qed.

Lemma source_plot_kinds :
  map (fun c => kwarg "kind" (mkeywords c)) source_plot_calls =
  map (fun k => Some (EStr k))
      ["line"; "bar"; "bar"; "barh"; "scatter"; "hexbin"; "pie"; "area"; "kde"; "kde";
       "density"; "hist"; "line"; "bar"; "bar"; "barh"; "area"].
Proof. vm_compute. reflexivity. Qed.

(** C3: for every plot call in the source, the [kind] argument, when
    given, is one of line, bar, barh, scatter, hexbin, pie, area, kde,
    density and hist, and every one of these is the kind of some call. *)
Theorem plot_kinds_fixed_and_exercised :
  (∀ c, In c source_plot_calls → kind_in_set c)
  ∧ (∀ k, In k plot_kinds →
          ∃ c, In c source_plot_calls ∧ kwarg "kind" (mkeywords c) = Some (EStr k)).
Proof.
  split.
  - intros c Hc. apply kind_in_setb_sound.
    assert (Hall : forallb kind_in_setb source_plot_calls = true) by (vm_compute; reflexivity).
    rewrite forallb_forall in Hall. auto.
  - intros k Hk.
    assert (Hin : In (Some (EStr k))
                     (map (fun c => kwarg "kind" (mkeywords c)) source_plot_calls)).
    { rewrite source_plot_kinds. simpl in Hk. simpl.
      intuition (subst; auto 20). }
    apply in_map_iff in Hin as (c & Hc & Hin). eauto.
Qed.

Lemma plot_kinds_fixed_and_exercised_witness :
  In plot_on_B source_plot_calls ∧ kind_in_set plot_on_B
  ∧ In "hexbin" plot_kinds
  ∧ ∃ c, In c source_plot_calls ∧ kwarg "kind" (mkeywords c) = Some (EStr "hexbin").
Proof.
  assert (H1 : In plot_on_B source_plot_calls) by (vm_compute; tauto).
  assert (H2 : In "hexbin" plot_kinds) by (vm_compute; tauto).
  exact (conj H1 (conj (proj1 plot_kinds_fixed_and_exercised plot_on_B H1)
           (conj H2 (proj2 plot_kinds_fixed_and_exercised "hexbin" H2)))).
Defined.

(** ** C7: no error handling *)

(** C7: no statement of any cell of either notebook is a [try], an [if],
    an [assert] or a [raise]: every one is an import, an assignment or an
    expression, so no call site is guarded or has its result checked. *)
Theorem no_error_handling_in_source (s : stmt) :
  In s all_stmts → error_handling s = false.
Proof.
  intros Hs.
  assert (Hall : forallb (fun s => negb (error_handling s)) all_stmts = true)
    by (vm_compute; reflexivity).
  rewrite forallb_forall in Hall. apply negb_true_iff. auto.
Qed.

Lemma no_error_handling_in_source_witness :
  In (SExpr read_kind_of_A) all_stmts ∧ error_handling (SExpr read_kind_of_A) = false.
Proof.
  assert (H : In (SExpr read_kind_of_A) all_stmts) by (vm_compute; tauto).
  exact (conj H (no_error_handling_in_source (SExpr read_kind_of_A) H)).
Defined.

(** ** C10: one cell, two plot calls *)

(** A store keyed by cell label holds one value per label. *)
Lemma keyed_store_holds_one (store : gmap string kwargs) (L : string) (k1 k2 : kwargs) :
  k1 ≠ k2 → ¬ (store !! L = Some k1 ∧ store !! L = Some k2).
Proof. intros Hne [H1 H2]. rewrite H1 in H2. by injection H2. Qed.

(** C10: in the first session two plot calls target cell A (a line plot,
    then a stacked bar plot) and two target cell H (two kde plots, written
    [H^] and [H]); their keyword arguments differ, so no store keyed by cell
    label holds the arguments of both calls of a cell. *)
Theorem same_cell_targeted_twice :
  ∃ a1 a2 h1 h2 : mcall,
    targeted_twice session1 "A" a1 a2
    ∧ kwarg "kind" (mkeywords a1) = Some (EStr "line")
    ∧ kwarg "kind" (mkeywords a2) = Some (EStr "bar")
    ∧ kwarg "stacked" (mkeywords a2) = Some (EBool true)
    ∧ targeted_twice session1 "H" h1 h2
    ∧ kwarg "kind" (mkeywords h1) = Some (EStr "kde")
    ∧ kwarg "kind" (mkeywords h2) = Some (EStr "kde")
    ∧ ∀ store : gmap string kwargs,
        ¬ (store !! "A" = Some (mkeywords a1) ∧ store !! "A" = Some (mkeywords a2))
        ∧ ¬ (store !! "H" = Some (mkeywords h1) ∧ store !! "H" = Some (mkeywords h2)).
Proof.
  exists (nth 1 part_000.calls1 (dot "" [] [])), (nth 2 part_000.calls1 (dot "" [] [])),
         (nth 15 part_000.calls1 (dot "" [] [])), (nth 16 part_000.calls1 (dot "" [] [])).
  repeat split; try reflexivity.
  - exists 1%nat, 2%nat. repeat split; try reflexivity. lia.
  - exists 15%nat, 16%nat. repeat split; try reflexivity. lia.
  - apply keyed_store_holds_one. discriminate.
  - apply keyed_store_holds_one. discriminate.
Qed.

(** ** The session model *)

Section Chains.
Import Plotter.

Lemma run_chain_app (pre post : list mcall) (p : t) :
  run_chain (pre ++ post) p =
  match run_chain pre p with
  | Some p' => run_chain post p'
  | None => None
  end.
Proof.
  revert p. induction pre as [|c pre IH]; intros p; simpl; [done|].
  destruct (step c p); [apply IH | done].
Qed.

Lemma plot_active (kws : kwargs) (p : t) : active (plot kws p) = active p.
Proof. unfold plot. by repeat case_match. Qed.

(** One call changes the active dataset exactly when it supplies one. *)
Lemma step_active (c : mcall) (p p' : t) :
  step c p = Some p' →
  active p' = match data_arg c with Some d => Some d | None => active p end.
Proof.
  unfold step, data_arg. destruct (is_data c).
  - destruct (margs c) as [|d [|? ?]]; [discriminate | | discriminate].
    by intros [= <-].
  - destruct (is_plot c); [intros [= <-]; apply plot_active|].
    destruct (String.eqb _ _); [by intros [= <-] | discriminate].
Qed.

Lemma most_recent_data_cons (c : mcall) (cs : list mcall) :
  most_recent_data (c :: cs) =
  match most_recent_data cs with Some d => Some d | None => data_arg c end.
Proof.
  unfold most_recent_data.
  change (omap data_arg (c :: cs))
    with (match data_arg c with
          | Some d => d :: omap data_arg cs
          | None => omap data_arg cs
          end).
  destruct (data_arg c) as [d|].
  - rewrite last_cons. by destruct (last (omap data_arg cs)).
  - by destruct (last (omap data_arg cs)).
Qed.

Lemma most_recent_data_snoc (cs : list mcall) (c : mcall) :
  most_recent_data (cs ++ [c]) =
  match data_arg c with Some d => Some d | None => most_recent_data cs end.
Proof.
  unfold most_recent_data. rewrite omap_app.
  change (omap data_arg [c])
    with (match data_arg c with Some d => [d] | None => [] end).
  destruct (data_arg c) as [d|].
  - apply last_snoc.
  - by rewrite app_nil_r.
Qed.

(** Threading the state forward agrees with scanning the chain backward. *)
Lemma run_chain_active (cs : list mcall) (p p' : t) :
  run_chain cs p = Some p' →
  active p' = match most_recent_data cs with Some d => Some d | None => active p end.
Proof.
  revert p. induction cs as [|c cs IH]; intros p; cbn [run_chain].
  - by intros [= <-].
  - destruct (step c p) as [q|] eqn:Hstep; [|discriminate].
    intros Hrun. rewrite (IH _ Hrun), (step_active _ _ _ Hstep).
    rewrite most_recent_data_cons.
    destruct (most_recent_data cs); [done|]. by destruct (data_arg c).
Qed.

(** What [most_recent_data] finds is the dataset of a [data] call of the
    prefix after which the prefix supplies no other. *)
Lemma most_recent_data_Some (pre : list mcall) (d : expr) :
  most_recent_data pre = Some d →
  ∃ pre1 cd pre2, pre = pre1 ++ cd :: pre2 ∧ data_arg cd = Some d
                  ∧ Forall (fun c => data_arg c = None) pre2.
Proof.
  induction pre as [|c pre IH] using rev_ind; [done|].
  rewrite most_recent_data_snoc. destruct (data_arg c) as [d'|] eqn:Hc.
  - intros [= <-]. exists pre, c, []. auto.
  - intros H. destruct (IH H) as (pre1 & cd & pre2 & -> & Hcd & Hno).
    exists pre1, cd, (pre2 ++ [c]). rewrite <- app_assoc. split; [done|].
    split; [done|]. apply Forall_app. auto.
Qed.

Lemma data_before_plots_sound (cs pre post : list mcall) (c : mcall) (seen : bool) :
  data_before_plots seen cs = true → cs = pre ++ c :: post → is_plot c = true →
  seen = true ∨ is_Some (most_recent_data pre).
Proof.
  revert cs seen.
  induction pre as [|x pre IH]; intros cs seen Hok -> Hc; cbn [app data_before_plots] in Hok.
  - rewrite Hc in Hok. apply andb_true_iff in Hok as [-> _]. by left.
  - destruct (is_plot x).
    + apply andb_true_iff in Hok as [-> _]. by left.
    + rewrite most_recent_data_cons.
      destruct (IH _ _ Hok eq_refl Hc) as [Hseen|[d ->]]; [|eauto].
      apply orb_true_iff in Hseen as [->|Hx]; [by left|]. right.
      apply bool_decide_eq_true in Hx. by destruct (most_recent_data pre).
Qed.









End Chains.

Section Sessions.
Import Plotter.

Lemma step_data_arg (c : mcall) (p p' : t) :
  step c p = Some p' → is_data c = true → is_Some (data_arg c).
Proof.
  unfold step, data_arg. intros Hstep Hd. rewrite Hd in *.
  destruct (margs c) as [|d [|? ?]]; [discriminate | eauto | discriminate].
Qed.

(** In a chain that runs through, every call runs. *)
Lemma run_chain_split (pre post : list mcall) (c : mcall) (p0 pf : t) :
  run_chain (pre ++ c :: post) p0 = Some pf →
  ∃ p q, run_chain pre p0 = Some p ∧ step c p = Some q.
Proof.
  rewrite run_chain_app. destruct (run_chain pre p0) as [p|]; [|discriminate].
  simpl. destruct (step c p) as [q|] eqn:Hq; [eauto | discriminate].
Qed.

Lemma run_chain_data_calls (cs : list mcall) (p0 pf : t) :
  run_chain cs p0 = Some pf →
  Forall (fun c => data_arg c = None → is_data c = false) cs.
Proof.
  intros Hrun. apply Forall_forall. intros c Hc Hnone.
  apply list_elem_of_split in Hc as (pre & post & ->).
  destruct (run_chain_split _ _ _ _ _ Hrun) as (p & q & _ & Hstep).
  destruct (is_data c) eqn:Hd; [|done].
  destruct (step_data_arg _ _ _ Hstep Hd) as [d Hd']. congruence.
Qed.

Lemma well_chained_sessions (s : session) : In s all_sessions → well_chained s = true.
Proof.
  intros Hs.
  assert (Hall : forallb well_chained all_sessions = true) by (vm_compute; reflexivity).
  rewrite forallb_forall in Hall. auto.
Qed.

Lemma well_chained_run (s : session) :
  well_chained s = true →
  ∃ p0 pf, start s = Some p0 ∧ active p0 = None ∧ plot_kwargs_store p0 = ∅
           ∧ run_chain (calls s) p0 = Some pf
           ∧ data_before_plots false (calls s) = true.
Proof.
  unfold well_chained. destruct (start s) as [p0|] eqn:Hstart; [|discriminate].
  rewrite andb_true_iff, bool_decide_eq_true. intros [[pf Hpf] Hdata].
  exists p0, pf. repeat split; try done.
  - unfold start, construct in Hstart. repeat case_match; by simplify_eq.
  - unfold start, construct in Hstart. repeat case_match; by simplify_eq.
Qed.

(** ** C4: the dataset a plot call draws *)

(** C4 (spec-modelled session): in every session of the source, each plot
    call [c] comes after a [data] call; the chain before [c] runs, and the
    dataset active in the state [c] is called in is the one given by the
    last [data] call before [c]. *)
Theorem plot_uses_most_recent_data (s : session) (pre post : list mcall) (c : mcall) :
  In s all_sessions → calls s = pre ++ c :: post → is_plot c = true →
  ∃ (p0 p : t) (d : expr) (pre1 pre2 : list mcall) (cd : mcall),
    start s = Some p0 ∧ run_chain pre p0 = Some p ∧ active p = Some d
    ∧ pre = pre1 ++ cd :: pre2
    ∧ is_data cd = true ∧ margs cd = [d]
    ∧ Forall (fun c' => is_data c' = false) pre2.
Proof.
  intros Hs Hsplit Hplot.
  destruct (well_chained_run s (well_chained_sessions s Hs))
    as (p0 & pf & Hstart & Hact & _ & Hrun & Hdata).
  rewrite Hsplit in Hrun.
  destruct (run_chain_split _ _ _ _ _ Hrun) as (p & q & Hpre & _).
  destruct (data_before_plots_sound _ _ _ _ _ Hdata Hsplit Hplot) as [|[d Hd]]; [done|].
  destruct (most_recent_data_Some _ _ Hd) as (pre1 & cd & pre2 & Heq & Hcd & Hno).
  exists p0, p, d, pre1, pre2, cd. repeat split; try done.
  - rewrite (run_chain_active _ _ _ Hpre), Hd. done.
  - unfold data_arg in Hcd. by destruct (is_data cd).
  - unfold data_arg in Hcd. destruct (is_data cd); [|done].
    by destruct (margs cd) as [|? [|? ?]]; simplify_eq.
  - pose proof (run_chain_data_calls _ _ _ Hpre) as Hall. rewrite Heq in Hall.
    apply Forall_app in Hall as [_ Hall]. inversion Hall as [|? ? _ Hall2]; subst.
    clear -Hno Hall2.
    induction Hno as [|x l Hx _ IH]; [constructor|].
    inversion Hall2; subst. constructor; auto.
Qed.

Lemma plot_uses_most_recent_data_witness :
  ∃ (p0 p : t) (d : expr) (pre1 pre2 : list mcall) (cd : mcall),
    start session1 = Some p0
    ∧ run_chain (take 4 part_000.calls1) p0 = Some p ∧ active p = Some d
    ∧ take 4 part_000.calls1 = pre1 ++ cd :: pre2
    ∧ is_data cd = true ∧ margs cd = [d]
    ∧ Forall (fun c' => is_data c' = false) pre2.
Proof.
  apply (plot_uses_most_recent_data session1 (take 4 part_000.calls1)
           (drop 5 part_000.calls1) plot_on_B).
  - vm_compute. tauto.
  - reflexivity.
  - reflexivity.
Defined.

(** ** How a session is constructed *)



(** ** C6: what a finalized session exposes *)









End Sessions.

(** ** The arguments of the [select] calls *)

(** Every [select] call of the source passes one positional argument and
    no keyword: a list of column names, a regex string, or a pair of such a
    list and such a string; each of the three shapes occurs. *)
Theorem select_call_shapes :
  map select_arg_of select_calls =
  [ Some (ByRegex "spe|sex|^n|^bi");
    Some (ByList ["species"; "n"]);
    Some (ByList ["A"; "B_X"]);
    Some (ByRegex "^B|C");
    Some (ByBoth ["A"; "B_X"] "^B|C") ].
Proof. vm_compute. reflexivity. Qed.

(** ** Names: bound before use, and bound without use *)

Lemma mem_In (x : string) (l : list string) : mem x l = true ↔ In x l.
Proof.
  unfold mem. rewrite existsb_exists. split.
  - intros (y & Hy & Heq). apply String.eqb_eq in Heq. by subst.
  - intros Hx. exists x. split; [done | apply String.eqb_refl].
Qed.

Lemma mem_not_In (x : string) (l : list string) : mem x l = false ↔ ¬ In x l.
Proof. rewrite <- mem_In. by destruct (mem x l). Qed.

Lemma bound_before_use_sound (bound : list string) (ss pre post : list stmt)
    (s : stmt) (x : string) :
  bound_before_use bound ss = true → ss = pre ++ s :: post → In x (stmt_reads s) →
  In x bound ∨ ∃ s', In s' pre ∧ In x (stmt_binds s').
Proof.
  revert bound ss. induction pre as [|a pre IH]; intros bound ss Hok -> Hx;
    cbn [app bound_before_use] in Hok; apply andb_true_iff in Hok as [Hreads Hrest].
  - left. rewrite forallb_forall in Hreads. apply mem_In. auto.
  - destruct (IH _ _ Hrest eq_refl Hx) as [Hb|(s' & Hs' & Hb)].
    + apply in_app_or in Hb as [Hb|Hb]; [|by left].
      right. exists a. split; [by left | done].
    + right. exists s'. split; [by right | done].
Qed.

(** Running the cells of either notebook top to bottom, every name a
    statement reads is [print] or was bound, by an import or an assignment,
    in an earlier statement of the same notebook. *)
Theorem names_bound_before_use (nb : notebook) (pre post : list stmt) (s : stmt)
    (x : string) :
  In nb source → concat nb = pre ++ s :: post → In x (stmt_reads s) →
  In x builtins ∨ ∃ s', In s' pre ∧ In x (stmt_binds s').
Proof.
  intros Hnb Hsplit Hx.
  assert (Hall : forallb (fun nb => bound_before_use builtins (concat nb)) source = true)
    by (vm_compute; reflexivity).
  rewrite forallb_forall in Hall.
  exact (bound_before_use_sound _ _ _ _ _ _ (Hall nb Hnb) Hsplit Hx).
Qed.

Lemma names_bound_before_use_witness :
  In "k" builtins
  ∨ ∃ s', In s' (take 13 (concat part_000.cells)) ∧ In "k" (stmt_binds s').
Proof.
  apply (names_bound_before_use part_000.cells (take 13 (concat part_000.cells))
           (drop 14 (concat part_000.cells))
           (SExpr (chain (EName "k") part_000.calls1)) "k").
  - left. reflexivity.
  - reflexivity.
  - vm_compute. left. reflexivity.
Defined.

Lemma unused_spec (nb : notebook) (x : string) :
  In x (unused nb) ↔ In x (names_bound nb) ∧ ¬ In x (names_used nb).
Proof.
  unfold unused. rewrite <- !list_elem_of_In, list_elem_of_filter, mem_not_In.
  rewrite <- !list_elem_of_In. tauto.
Qed.

(** The plotting notebook binds [pd], [marker] and [size] and reads none of
    them, and these are all such names; the utilities notebook imports
    pytae as [pt] and never reads [pt], and this is its only such name. *)
Theorem unused_names :
  (∀ x, In x (names_bound part_000.cells) ∧ ¬ In x (names_used part_000.cells)
        ↔ In x ["pd"; "marker"; "size"])
  ∧ (∀ x, In x (names_bound other_utilities.cells)
          ∧ ¬ In x (names_used other_utilities.cells)
          ↔ In x ["pt"]).
Proof.
  split; intros x; rewrite <- unused_spec.
  - by replace (unused part_000.cells) with ["pd"; "marker"; "size"]
      by (vm_compute; reflexivity).
  - by replace (unused other_utilities.cells) with ["pt"] by (vm_compute; reflexivity).
Qed.

(** ** Keywords of a call *)

Lemma distinct_kwarg (kws : kwargs) (n : string) (v : expr) :
  distinct (map fst kws) = true → (kwarg n kws = Some v ↔ In (n, v) kws).
Proof.
  induction kws as [|[k w] kws IH]; simpl; [intros _; split; [discriminate | tauto]|].
  rewrite andb_true_iff, negb_true_iff, mem_not_In. intros [Hk Hrest].
  destruct (String.eqb k n) eqn:Hkn.
  - apply String.eqb_eq in Hkn. subst k. split.
    + intros [= ->]. by left.
    + intros [[= ->]|Hin]; [done|]. destruct Hk. apply in_map_iff. by exists (n, v).
  - apply String.eqb_neq in Hkn. rewrite (IH Hrest). split; [tauto|].
    intros [[= ? ?]|?]; [congruence | done].
Qed.

(** No method call of the source gives a keyword twice, so a keyword
    argument of a call has the value [v] exactly when the call is written
    with the pair [name=v]. *)
Theorem keyword_lookup_exact (c : mcall) (n : string) (v : expr) :
  In c all_method_calls → (kwarg n (mkeywords c) = Some v ↔ In (n, v) (mkeywords c)).
Proof.
  intros Hc. apply distinct_kwarg.
  assert (Hall : forallb (fun c => distinct (map fst (mkeywords c))) all_method_calls = true)
    by (vm_compute; reflexivity).
  rewrite forallb_forall in Hall. auto.
Qed.

Lemma keyword_lookup_exact_witness :
  In plot_on_B all_method_calls
  ∧ (kwarg "on" (mkeywords plot_on_B) = Some (EStr "B^")
     ↔ In ("on", EStr "B^") (mkeywords plot_on_B)).
Proof.
  assert (H : In plot_on_B all_method_calls) by (vm_compute; tauto).
  exact (conj H (keyword_lookup_exact plot_on_B "on" (EStr "B^") H)).
Defined.

(** ** Every cell of a mosaic is drawn on *)

Lemma targets_cell_target (a : ascii) (c : mcall) :
  targets_cell a c = true → target c = Some (String a "").
Proof.
  unfold targets_cell. destruct (target c) as [L|]; [|discriminate].
  intros H. apply String.eqb_eq in H. by subst.
Qed.

(** In every session of the source, each letter of the mosaic string the
    session was constructed with is the cell of at least one plot call of
    the session. *)
Theorem every_mosaic_cell_targeted (s : session) (m : string) (a : ascii) :
  In s all_sessions → mosaic_of s = Some m →
  In a (list_ascii_of_string m) → is_letter a = true →
  ∃ c, In c (plot_calls s) ∧ target c = Some (String a "").
Proof.
  intros Hs Hm Ha Hl.
  assert (Hall : forallb (fun s =>
             match mosaic_of s with
             | Some m => forallb (fun a => negb (is_letter a)
                                           || existsb (targets_cell a) (plot_calls s))
                                 (list_ascii_of_string m)
             | None => true
             end) all_sessions = true) by (vm_compute; reflexivity).
  rewrite forallb_forall in Hall. specialize (Hall s Hs). rewrite Hm in Hall.
  rewrite forallb_forall in Hall. specialize (Hall a Ha). rewrite Hl in Hall.
  apply existsb_exists in Hall as (c & Hc & Hcell).
  exists c. split; [done | by apply targets_cell_target].
Qed.

Lemma every_mosaic_cell_targeted_witness :
  ∃ c, In c (plot_calls session2) ∧ target c = Some "D".
Proof.
  apply (every_mosaic_cell_targeted session2 part_000.mosaic2 "D"%char).
  - vm_compute. tauto.
  - reflexivity.
  - vm_compute. tauto.
  - reflexivity.
Defined.

(** ** The shape of a session chain *)

Lemma is_finalize_eq (c : mcall) : is_finalize c = true → c = dot "finalize" [] [].
Proof.
  destruct c as [m a k]. unfold is_finalize. simpl.
  rewrite andb_true_iff, String.eqb_eq. intros [-> H].
  destruct a; [|discriminate]. destruct k; [done | discriminate].
Qed.

Lemma blocks_from_sound (cs : list mcall) (cur : option block) (bs : list block) :
  blocks_from cur cs = Some bs →
  (∀ b, cur = Some b → is_data b.1 = true ∧ Forall (fun c => is_plot c = true) b.2) →
  open_calls cur ++ cs = flat_map block_calls bs ++ [dot "finalize" [] []]
  ∧ bs ≠ [] ∧ Forall block_ok bs.
Proof.
  revert cur bs. induction cs as [|c cs IH]; intros cur bs; cbn [blocks_from];
    [discriminate|].
  destruct (is_data c) eqn:Hdata; [|destruct (is_plot c) eqn:Hplot].
  - assert (Hnew : ∀ b, Some (c, []) = Some b →
                        is_data b.1 = true ∧ Forall (fun c => is_plot c = true) b.2).
    { intros b [= <-]. by split. }
    destruct cur as [[d [|p ps]]|].
    + discriminate.
    + destruct (blocks_from (Some (c, [])) cs) as [bs0|] eqn:Hbs0; [|discriminate].
      intros [= <-] Hcur. destruct (IH _ _ Hbs0 Hnew) as (Heq & _ & Hok).
      destruct (Hcur _ eq_refl) as [Hd Hps]. repeat split.
      * cbn [open_calls block_calls fst snd app] in *. cbn [flat_map].
        rewrite <- app_assoc. unfold block_calls at 1. cbn [fst snd].
        rewrite <- Heq. reflexivity.
      * discriminate.
      * constructor; [|done]. by repeat split.
    + intros Hbs _. destruct (IH _ _ Hbs Hnew) as (Heq & Hne & Hok). by repeat split.
  - destruct cur as [[d ps]|]; [|discriminate]. intros Hbs Hcur.
    destruct (Hcur _ eq_refl) as [Hd Hps].
    destruct (IH _ _ Hbs) as (Heq & Hne & Hok).
    { intros b [= <-]. split; [done|]. apply Forall_app. split; [done|].
      by constructor. }
    repeat split; try done. rewrite <- Heq.
    cbn [open_calls block_calls fst snd app]. by rewrite <- app_assoc.
  - destruct (is_finalize c) eqn:Hfin; [|discriminate].
    destruct cur as [[d [|p ps]]|]; try discriminate.
    destruct cs; [|discriminate]. intros [= <-] Hcur.
    destruct (Hcur _ eq_refl) as [Hd Hps]. apply is_finalize_eq in Hfin. subst c.
    repeat split.
    + cbn [flat_map]. by rewrite app_nil_r.
    + discriminate.
    + constructor; [|constructor]. by repeat split.
Qed.

(** The chain of every session of the source is one or more blocks, each a
    [data] call followed by at least one [plot] call, and then a single
    [finalize()] with no argument: no [data] call goes without a plot, and
    nothing follows [finalize]. *)
Theorem session_chain_shape (s : session) :
  In s all_sessions →
  ∃ bs : list block,
    calls s = flat_map block_calls bs ++ [dot "finalize" [] []]
    ∧ bs ≠ [] ∧ Forall block_ok bs.
Proof.
  intros Hs.
  assert (Hall : forallb (fun s => bool_decide (is_Some (blocks_from None (calls s))))
                         all_sessions = true) by (vm_compute; reflexivity).
  rewrite forallb_forall in Hall.
  destruct (bool_decide_eq_true_1 _ (Hall s Hs)) as [bs Hbs].
  exists bs. apply (blocks_from_sound _ None _ Hbs). intros b [=].
Qed.

Lemma session_chain_shape_witness :
  ∃ bs : list block,
    calls session2 = flat_map block_calls bs ++ [dot "finalize" [] []]
    ∧ bs ≠ [] ∧ Forall block_ok bs.
Proof. apply (session_chain_shape session2). vm_compute. tauto. Defined.

(** ** The arguments of the session calls *)

Lemma sample_bindings (x : string) :
  In x sample_names →
  In (SAssign x (part_000.sample_data x)) (concat part_000.cells)
  ∧ ∀ v, In (SAssign x v) (concat part_000.cells) → v = part_000.sample_data x.
Proof.
  intros [<-|[<-|[<-|[]]]]; (split; [vm_compute; tauto|]); intros v H; vm_compute in H;
    repeat (destruct H as [H|H];
            [try discriminate H; try (injection H as <-; reflexivity)|]);
    destruct H.
Qed.

Lemma given_is_Some (n : string) (c : mcall) :
  given n c = true ↔ is_Some (kwarg n (mkeywords c)).
Proof.
  unfold given. destruct (kwarg n (mkeywords c)).
  - split; eauto.
  - split; [discriminate | by intros [? ?]].
Qed.

Lemma not_given_None (n : string) (c : mcall) :
  negb (given n c) = true ↔ kwarg n (mkeywords c) = None.
Proof. unfold given. destruct (kwarg n (mkeywords c)); simpl; split; done. Qed.

(** In every session of the source: a [data] call passes one positional
    argument and no keyword, and the argument is one of the names [fmri],
    [tips], [healthexp], each bound in the notebook to the sample dataset of
    its own name and to nothing else; a [plot] call passes keywords only,
    [on] and [kind] among them; any other call is a bare [finalize()]. *)
Theorem session_call_arguments (s : session) (c : mcall) :
  In s all_sessions → In c (calls s) →
  (is_data c = true →
     ∃ x, margs c = [EName x] ∧ mkeywords c = [] ∧ In x sample_names
          ∧ In (SAssign x (part_000.sample_data x)) (concat part_000.cells)
          ∧ ∀ v, In (SAssign x v) (concat part_000.cells) → v = part_000.sample_data x)
  ∧ (is_plot c = true →
       margs c = [] ∧ is_Some (kwarg "on" (mkeywords c))
       ∧ is_Some (kwarg "kind" (mkeywords c)))
  ∧ (is_data c = false → is_plot c = false → c = dot "finalize" [] []).
Proof.
  intros Hs Hc.
  assert (Hall : forallb (fun s => forallb session_call_okb (calls s)) all_sessions = true)
    by (vm_compute; reflexivity).
  rewrite forallb_forall in Hall. specialize (Hall s Hs).
  rewrite forallb_forall in Hall. specialize (Hall c Hc).
  unfold session_call_okb in Hall. split; [|split].
  - intros Hd. rewrite Hd in Hall. unfold data_call_okb in Hall.
    destruct (margs c) as [|[x| | | | | | | | | |] [|? ?]]; try discriminate.
    destruct (mkeywords c); [|discriminate]. apply mem_In in Hall.
    exists x. destruct (sample_bindings x Hall). by repeat split.
  - intros Hp. destruct (is_data c) eqn:Hd.
    + exfalso. unfold is_plot, is_data in *.
      apply String.eqb_eq in Hp, Hd. congruence.
    + rewrite Hp in Hall. unfold plot_call_okb in Hall.
      destruct (margs c); [|discriminate].
      apply andb_true_iff in Hall as [H1 H2].
      apply bool_decide_eq_true in H1, H2. by repeat split.
  - intros Hd Hp. rewrite Hd, Hp in Hall. by apply is_finalize_eq.
Qed.

Lemma session_call_arguments_witness :
  (is_data plot_on_B = true →
     ∃ x, margs plot_on_B = [EName x] ∧ mkeywords plot_on_B = [] ∧ In x sample_names
          ∧ In (SAssign x (part_000.sample_data x)) (concat part_000.cells)
          ∧ ∀ v, In (SAssign x v) (concat part_000.cells) → v = part_000.sample_data x)
  ∧ (is_plot plot_on_B = true →
       margs plot_on_B = [] ∧ is_Some (kwarg "on" (mkeywords plot_on_B))
       ∧ is_Some (kwarg "kind" (mkeywords plot_on_B)))
  ∧ (is_data plot_on_B = false → is_plot plot_on_B = false →
     plot_on_B = dot "finalize" [] []).
Proof.
  apply (session_call_arguments session1 plot_on_B).
  - vm_compute. tauto.
  - vm_compute. tauto.
Defined.

(** ** Which axes a kind of plot is given *)

Lemma bool_eq_iff (a b : bool) (P Q : Prop) :
  (a = true ↔ P) → (b = true ↔ Q) → Bool.eqb a b = true → (P ↔ Q).
Proof. intros HP HQ Hab. apply Bool.eqb_prop in Hab. subst b. by rewrite <- HP, <- HQ. Qed.

(** For every plot call of the source, of kind [k]: it names a [column]
    exactly when [k] is kde, density or hist, it names [y] exactly when [k]
    is none of these, and it names [x] exactly when [k] is none of these
    nor pie. *)
Theorem plot_axes_follow_kind (c : mcall) (k : string) :
  In c source_plot_calls → kwarg "kind" (mkeywords c) = Some (EStr k) →
  (In k distribution_kinds ↔ is_Some (kwarg "column" (mkeywords c)))
  ∧ (In k distribution_kinds ↔ kwarg "y" (mkeywords c) = None)
  ∧ (In k ("pie" :: distribution_kinds) ↔ kwarg "x" (mkeywords c) = None).
Proof.
  intros Hc Hk.
  assert (Hall : forallb axes_match_kindb source_plot_calls = true)
    by (vm_compute; reflexivity).
  rewrite forallb_forall in Hall. specialize (Hall c Hc).
  unfold axes_match_kindb in Hall. rewrite Hk in Hall. unfold axes_match_kind in Hall.
  apply andb_true_iff in Hall as [Hall Hx]. apply andb_true_iff in Hall as [Hcol Hy].
  split; [|split].
  - exact (bool_eq_iff _ _ _ _ (mem_In _ _) (given_is_Some _ _) Hcol).
  - exact (bool_eq_iff _ _ _ _ (mem_In _ _) (not_given_None _ _) Hy).
  - exact (bool_eq_iff _ _ _ _ (mem_In _ _) (not_given_None _ _) Hx).
Qed.

Lemma plot_axes_follow_kind_witness :
  (In "bar" distribution_kinds ↔ is_Some (kwarg "column" (mkeywords plot_on_B)))
  ∧ (In "bar" distribution_kinds ↔ kwarg "y" (mkeywords plot_on_B) = None)
  ∧ (In "bar" ("pie" :: distribution_kinds) ↔ kwarg "x" (mkeywords plot_on_B) = None).
Proof.
  apply (plot_axes_follow_kind plot_on_B "bar").
  - vm_compute. tauto.
  - reflexivity.
Defined.

(** ** Columns a [select] call lists *)

(** Wherever the source calls [select] on a name bound to a frame built by
    [DataFrame(..., columns=[...])], every column name the call lists, in
    its list form or its tuple form, is one of the columns the frame was
    built with. *)
Theorem select_lists_frame_columns (v : expr) (c : mcall) (cols : list string)
    (x : string) :
  In (v, c) (flat_map receiver_values source) → mname c = "select" →
  frame_columns v = Some cols → In x (listed_columns c) → In x cols.
Proof.
  intros Hvc Hsel Hcols Hx.
  assert (Hall : forallb lists_known_columns (flat_map receiver_values source) = true)
    by (vm_compute; reflexivity).
  rewrite forallb_forall in Hall. specialize (Hall _ Hvc).
  unfold lists_known_columns in Hall. cbn [fst snd] in Hall.
  rewrite Hcols, Hsel, String.eqb_refl in Hall. cbn [negb orb] in Hall.
  rewrite forallb_forall in Hall. apply mem_In. auto.
Qed.

Lemma select_lists_frame_columns_witness : In "B_X" ["A"; "B_X"; "B"; "C"].
Proof.
  apply (select_lists_frame_columns
           (nth 14 (receiver_values other_utilities.cells) (EName "", dot "" [] [])).1
           (nth 14 (receiver_values other_utilities.cells) (EName "", dot "" [] [])).2
           ["A"; "B_X"; "B"; "C"] "B_X").
  - vm_compute. tauto.
  - reflexivity.
  - reflexivity.
  - vm_compute. tauto.
Defined.
